(** * bonsoir_windows/windows/bonsoir_broadcast.h

    The header declares the class [BonsoirBroadcast] (derived from
    [BonsoirAction]) and the free function [registerCallback].  It holds
    declarations only, so the development reads it at three levels:

    - [SourceText]: the header as it is written, line by line, with a small
      lexer that splits it into C++ tokens;
    - [Syntax]: the declarations of the header as a syntax tree, tied to the
      text by [header_tokens_agree] (the tree prints to the token stream of
      the text); [Queries] reads the tree, [Virtual] gives the rules of
      [override] and of virtual calls over it;
    - [Windows] and [bonsoir_windows]: the objects the declarations denote:
      the request structure of the DNS Service Discovery API and the record
      of data members of a [BonsoirBroadcast] with their initialisation.

    What the header uses but does not declare ([BonsoirAction],
    [BonsoirService]) is a parameter.  The functions it declares are defined
    in another file: nothing below depends on what their bodies do. *)

From Stdlib Require Import List String Ascii Bool Arith ZArith.
Import ListNotations.

Set Warnings "-register-all".

Local Open Scope string_scope.
Local Open Scope list_scope.

(* ------------------------------------------------------------------ *)
(** ** The text of the header *)

Module SourceText.

(** The double-quote character, used by the [#include] line. *)
Definition dquote : ascii := ascii_of_nat 34.

(** The line feed that separates the lines of the file. *)
Definition newline : ascii := ascii_of_nat 10.

Definition quoted (s : string) : string :=
  String dquote (String.append s (String dquote EmptyString)).

(** The lines of bonsoir_broadcast.h, in order.  Every line but the last is
    followed by a line feed in the file; the last one (the brace closing the
    namespace) ends the file without one. *)
Definition lines : list string :=
  [ "#pragma once"
  ; EmptyString
  ; String.append "#include " (quoted "bonsoir_action.h")
  ; EmptyString
  ; "using namespace flutter;"
  ; EmptyString
  ; "namespace bonsoir_windows {"
  ; "  class BonsoirBroadcast : public BonsoirAction {"
  ; "   public:"
  ; "    BonsoirService service;"
  ; EmptyString
  ; "    BonsoirBroadcast("
  ; "      int _id,"
  ; "      bool _printLogs,"
  ; "      flutter::BinaryMessenger *_binaryMessenger,"
  ; "      std::function<void()> onDispose,"
  ; "      BonsoirService _service"
  ; "    );"
  ; EmptyString
  ; "    void start() override;"
  ; EmptyString
  ; "    void dispose() override;"
  ; EmptyString
  ; "   private:"
  ; "    DNS_SERVICE_REGISTER_REQUEST registerRequest{};"
  ; "  };"
  ; EmptyString
  ; "  void registerCallback(DWORD status, PVOID context, PDNS_SERVICE_INSTANCE instance);"
  ; "}  // namespace bonsoir_windows"
  ].

(** The file as one string: the lines joined by line feeds. *)
Definition contents : string :=
  String.concat (String newline EmptyString) lines.

(** Number of occurrences of a character in a string. *)
Fixpoint count_char (c : ascii) (s : string) : nat :=
  match s with
  | EmptyString => 0
  | String d rest =>
      (if Ascii.eqb c d then 1 else 0) + count_char c rest
  end.

(** Splitting a text at a separator character.  [cur] is the piece being
    read; a text with [n] separators has [n + 1] pieces. *)
Fixpoint split_at (sep : ascii) (cur : string) (s : string) : list string :=
  match s with
  | EmptyString => [cur]
  | String d rest =>
      if Ascii.eqb sep d then cur :: split_at sep EmptyString rest
      else split_at sep (String.append cur (String d EmptyString)) rest
  end.

(** The lines of a text as an editor numbers them: the pieces between line
    feeds, the last one being the text after the last line feed. *)
Definition text_lines (s : string) : list string :=
  split_at newline EmptyString s.

(** The lines ended by a line feed (what [wc -l] counts). *)
Definition terminated_lines (s : string) : nat := count_char newline s.

(** *** Lexer *)

Definition is_upper (c : ascii) : bool :=
  let n := nat_of_ascii c in ((65 <=? n) && (n <=? 90))%nat.
Definition is_lower (c : ascii) : bool :=
  let n := nat_of_ascii c in ((97 <=? n) && (n <=? 122))%nat.
Definition is_digit (c : ascii) : bool :=
  let n := nat_of_ascii c in ((48 <=? n) && (n <=? 57))%nat.
Definition is_ident_char (c : ascii) : bool :=
  is_upper c || is_lower c || is_digit c || Ascii.eqb c "_"%char.
Definition is_space (c : ascii) : bool :=
  let n := nat_of_ascii c in ((n =? 32) || ((9 <=? n) && (n <=? 13)))%nat.

Definition flush (cur : string) (k : list string) : list string :=
  match cur with
  | EmptyString => k
  | _ => cur :: k
  end.

Definition snoc (s : string) (c : ascii) : string :=
  String.append s (String c EmptyString).

(** [lex_line in_str cur s] reads one line.  [cur] is the token being
    accumulated; [in_str] says that a string literal is open.  A [//]
    outside a literal discards the rest of the line; an identifier is a
    maximal run of letters, digits and underscores; every other visible
    character is a token of its own. *)
Fixpoint lex_line (in_str : bool) (cur : string) (s : string) : list string :=
  match s with
  | EmptyString => flush cur []
  | String c rest =>
      if in_str then
        if Ascii.eqb c dquote then snoc cur c :: lex_line false EmptyString rest
        else lex_line true (snoc cur c) rest
      else if Ascii.eqb c dquote then
        flush cur (lex_line true (String c EmptyString) rest)
      else if is_space c then flush cur (lex_line false EmptyString rest)
      else if is_ident_char c then lex_line false (snoc cur c) rest
      else
        match c, rest with
        | "/"%char, String "/"%char _ => flush cur []
        | _, _ => flush cur (String c EmptyString :: lex_line false EmptyString rest)
        end
  end.

Definition tokenize (ls : list string) : list string :=
  flat_map (lex_line false EmptyString) ls.

(** The token stream of the header. *)
Definition tokens : list string := tokenize lines.

(** *** Searching the text *)

Definition to_lower (c : ascii) : ascii :=
  if is_upper c then ascii_of_nat (nat_of_ascii c + 32) else c.

Fixpoint lowercase (s : string) : string :=
  match s with
  | EmptyString => EmptyString
  | String c rest => String (to_lower c) (lowercase rest)
  end.

Fixpoint is_prefix (p s : string) : bool :=
  match p, s with
  | EmptyString, _ => true
  | String a p', String b s' => Ascii.eqb a b && is_prefix p' s'
  | String _ _, EmptyString => false
  end.

Fixpoint contains (w s : string) : bool :=
  is_prefix w s ||
  match s with
  | EmptyString => false
  | String _ rest => contains w rest
  end.

(** Case-insensitive occurrence of the word [w] (given in lower case)
    anywhere in the line [l]. *)
Definition mentions (w l : string) : bool := contains w (lowercase l).

Definition has_token (t : string) (ts : list string) : bool :=
  existsb (String.eqb t) ts.

Definition count_token (t : string) (ts : list string) : nat :=
  List.length (filter (String.eqb t) ts).

(** The tokens that directly follow an occurrence of [t]. *)
Fixpoint followers (t : string) (ts : list string) : list string :=
  match ts with
  | [] => []
  | a :: rest =>
      match rest with
      | b :: _ => if String.eqb t a then b :: followers t rest else followers t rest
      | [] => []
      end
  end.

End SourceText.

(* ------------------------------------------------------------------ *)
(** ** The declarations of the header *)

Module Syntax.

(** Types as the header writes them. *)
Inductive CppType : Type :=
| TVoid
| TInt
| TBool
| TName (name : string)                       (* BonsoirService, DWORD, ... *)
| TQual (scope : string) (t : CppType)        (* flutter::BinaryMessenger *)
| TPtr (t : CppType)                          (* T * *)
| TTemplate (name : string) (args : list CppType)   (* function<...> *)
| TFun (ret : CppType) (params : list CppType).     (* void() *)

Record Param : Type := mkParam
  { param_type : CppType
  ; param_name : string }.

Inductive Access : Type := Public | Protected | Private.

(** A function declarator.  [fn_return] is [None] for a constructor;
    [fn_body] is [None] when the declaration ends in a semicolon and
    [Some toks] when a compound statement follows. *)
Record Function : Type := mkFunction
  { fn_return : option CppType
  ; fn_name : string
  ; fn_params : list Param
  ; fn_override : bool
  ; fn_body : option (list string) }.

(** A non-static data member, with its default member initialiser: the
    tokens between the braces, when there is one. *)
Record DataMember : Type := mkDataMember
  { dm_type : CppType
  ; dm_name : string
  ; dm_init : option (list string) }.

Inductive Member : Type :=
| MData (d : DataMember)
| MFunction (f : Function).

Record Class : Type := mkClass
  { class_name : string
  ; class_bases : list (Access * string)
  ; class_sections : list (Access * list Member) }.

Inductive NsDecl : Type :=
| NsClass (c : Class)
| NsFunction (f : Function).

Inductive TopDecl : Type :=
| PragmaOnce
| Include (file : string)
| UsingNamespace (ns : string)
| Namespace (name : string) (decls : list NsDecl).

Definition Header : Type := list TopDecl.

(** *** The header *)

Definition BonsoirBroadcast_ctor : Function :=
  {| fn_return := None
   ; fn_name := "BonsoirBroadcast"
   ; fn_params :=
       [ mkParam TInt "_id"
       ; mkParam TBool "_printLogs"
       ; mkParam (TPtr (TQual "flutter" (TName "BinaryMessenger"))) "_binaryMessenger"
       ; mkParam (TQual "std" (TTemplate "function" [TFun TVoid []])) "onDispose"
       ; mkParam (TName "BonsoirService") "_service" ]
   ; fn_override := false
   ; fn_body := None |}.

Definition start_decl : Function :=
  {| fn_return := Some TVoid
   ; fn_name := "start"
   ; fn_params := []
   ; fn_override := true
   ; fn_body := None |}.

Definition dispose_decl : Function :=
  {| fn_return := Some TVoid
   ; fn_name := "dispose"
   ; fn_params := []
   ; fn_override := true
   ; fn_body := None |}.

Definition service_decl : DataMember :=
  {| dm_type := TName "BonsoirService"
   ; dm_name := "service"
   ; dm_init := None |}.

Definition registerRequest_decl : DataMember :=
  {| dm_type := TName "DNS_SERVICE_REGISTER_REQUEST"
   ; dm_name := "registerRequest"
   ; dm_init := Some [] |}.

Definition BonsoirBroadcast_decl : Class :=
  {| class_name := "BonsoirBroadcast"
   ; class_bases := [(Public, "BonsoirAction")]
   ; class_sections :=
       [ (Public,
          [ MData service_decl
          ; MFunction BonsoirBroadcast_ctor
          ; MFunction start_decl
          ; MFunction dispose_decl ])
       ; (Private,
          [ MData registerRequest_decl ]) ] |}.

Definition registerCallback_decl : Function :=
  {| fn_return := Some TVoid
   ; fn_name := "registerCallback"
   ; fn_params :=
       [ mkParam (TName "DWORD") "status"
       ; mkParam (TName "PVOID") "context"
       ; mkParam (TName "PDNS_SERVICE_INSTANCE") "instance" ]
   ; fn_override := false
   ; fn_body := None |}.

Definition bonsoir_broadcast_h : Header :=
  [ PragmaOnce
  ; Include "bonsoir_action.h"
  ; UsingNamespace "flutter"
  ; Namespace "bonsoir_windows"
      [ NsClass BonsoirBroadcast_decl
      ; NsFunction registerCallback_decl ] ].

(** *** Printing declarations as tokens *)

Fixpoint sep_by (sep : string) (parts : list (list string)) : list string :=
  match parts with
  | [] => []
  | [p] => p
  | p :: rest => p ++ sep :: sep_by sep rest
  end.

Fixpoint type_tokens (t : CppType) : list string :=
  match t with
  | TVoid => ["void"]
  | TInt => ["int"]
  | TBool => ["bool"]
  | TName n => [n]
  | TQual sc t' => sc :: ":" :: ":" :: type_tokens t'
  | TPtr t' => type_tokens t' ++ ["*"]
  | TTemplate n args => n :: "<" :: sep_by "," (map type_tokens args) ++ [">"]
  | TFun r ps => type_tokens r ++ "(" :: sep_by "," (map type_tokens ps) ++ [")"]
  end.

Definition param_tokens (p : Param) : list string :=
  type_tokens (param_type p) ++ [param_name p].

Definition access_token (a : Access) : string :=
  match a with
  | Public => "public"
  | Protected => "protected"
  | Private => "private"
  end.

Definition function_tokens (f : Function) : list string :=
  match fn_return f with Some t => type_tokens t | None => [] end
  ++ fn_name f :: "(" :: sep_by "," (map param_tokens (fn_params f))
  ++ ")" :: (if fn_override f then ["override"] else [])
  ++ match fn_body f with
     | None => [";"]
     | Some body => "{" :: body ++ ["}"]
     end.

Definition data_member_tokens (d : DataMember) : list string :=
  type_tokens (dm_type d) ++ dm_name d
  :: match dm_init d with
     | None => [";"]
     | Some init => "{" :: init ++ ["}"; ";"]
     end.

Definition member_tokens (m : Member) : list string :=
  match m with
  | MData d => data_member_tokens d
  | MFunction f => function_tokens f
  end.

Definition section_tokens (s : Access * list Member) : list string :=
  access_token (fst s) :: ":" :: flat_map member_tokens (snd s).

Definition base_tokens (b : Access * string) : list string :=
  [access_token (fst b); snd b].

Definition class_tokens (c : Class) : list string :=
  "class" :: class_name c
  :: match class_bases c with
     | [] => []
     | bs => ":" :: sep_by "," (map base_tokens bs)
     end
  ++ "{" :: flat_map section_tokens (class_sections c) ++ ["}"; ";"].

Definition ns_decl_tokens (d : NsDecl) : list string :=
  match d with
  | NsClass c => class_tokens c
  | NsFunction f => function_tokens f
  end.

Definition top_decl_tokens (d : TopDecl) : list string :=
  match d with
  | PragmaOnce => ["#"; "pragma"; "once"]
  | Include f => ["#"; "include"; SourceText.quoted f]
  | UsingNamespace ns => ["using"; "namespace"; ns; ";"]
  | Namespace n ds => "namespace" :: n :: "{" :: flat_map ns_decl_tokens ds ++ ["}"]
  end.

Definition header_tokens (h : Header) : list string :=
  flat_map top_decl_tokens h.

(** *** Reading a header *)

Definition ns_decls (h : Header) : list NsDecl :=
  flat_map (fun d => match d with Namespace _ ds => ds | _ => [] end) h.

(** The classes a header declares. *)
Definition classes (h : Header) : list Class :=
  flat_map (fun d => match d with NsClass c => [c] | _ => [] end) (ns_decls h).

(** The functions declared at namespace scope. *)
Definition free_functions (h : Header) : list Function :=
  flat_map (fun d => match d with NsFunction f => [f] | _ => [] end) (ns_decls h).

Definition class_members (c : Class) : list Member :=
  flat_map snd (class_sections c).

Definition member_functions (c : Class) : list Function :=
  flat_map (fun m => match m with MFunction f => [f] | _ => [] end) (class_members c).

Definition data_members (c : Class) : list DataMember :=
  flat_map (fun m => match m with MData d => [d] | _ => [] end) (class_members c).

(** Every function the header introduces: the member functions of its
    classes, then the free functions. *)
Definition functions (h : Header) : list Function :=
  flat_map member_functions (classes h) ++ free_functions h.

(** Every data member the header introduces. *)
Definition state (h : Header) : list DataMember :=
  flat_map data_members (classes h).

(** *** Decidable equality of types and signatures *)

Fixpoint type_eqb (a b : CppType) : bool :=
  let fix all2 (xs ys : list CppType) : bool :=
    match xs, ys with
    | [], [] => true
    | x :: xs', y :: ys' => type_eqb x y && all2 xs' ys'
    | _, _ => false
    end in
  match a, b with
  | TVoid, TVoid => true
  | TInt, TInt => true
  | TBool, TBool => true
  | TName n, TName m => String.eqb n m
  | TQual s t, TQual s' t' => String.eqb s s' && type_eqb t t'
  | TPtr t, TPtr t' => type_eqb t t'
  | TTemplate n xs, TTemplate m ys => String.eqb n m && all2 xs ys
  | TFun r xs, TFun r' ys => type_eqb r r' && all2 xs ys
  | _, _ => false
  end.

(** A signature: the return type and the parameter types, names dropped. *)
Record Signature : Type := mkSignature
  { sig_return : option CppType
  ; sig_params : list CppType }.

Definition signature_of (f : Function) : Signature :=
  {| sig_return := fn_return f
   ; sig_params := map param_type (fn_params f) |}.

Fixpoint types_eqb (xs ys : list CppType) : bool :=
  match xs, ys with
  | [], [] => true
  | x :: xs', y :: ys' => type_eqb x y && types_eqb xs' ys'
  | _, _ => false
  end.

Definition signature_eqb (s t : Signature) : bool :=
  match sig_return s, sig_return t with
  | None, None => true
  | Some a, Some b => type_eqb a b
  | _, _ => false
  end && types_eqb (sig_params s) (sig_params t).

End Syntax.

(** Induction on types that reaches the types nested in argument lists. *)
Section CppType_induction.
Import Syntax.
Variable P : CppType -> Prop.
Hypothesis P_void : P TVoid.
Hypothesis P_int : P TInt.
Hypothesis P_bool : P TBool.
Hypothesis P_name : forall n, P (TName n).
Hypothesis P_qual : forall s t, P t -> P (TQual s t).
Hypothesis P_ptr : forall t, P t -> P (TPtr t).
Hypothesis P_template : forall n args, Forall P args -> P (TTemplate n args).
Hypothesis P_fun : forall r ps, P r -> Forall P ps -> P (TFun r ps).

Fixpoint CppType_nested_ind (t : CppType) : P t :=
  let all :=
    fix all (l : list CppType) : Forall P l :=
      match l with
      | [] => Forall_nil P
      | x :: l' => Forall_cons x (CppType_nested_ind x) (all l')
      end in
  match t with
  | TVoid => P_void
  | TInt => P_int
  | TBool => P_bool
  | TName n => P_name n
  | TQual s t' => P_qual s t' (CppType_nested_ind t')
  | TPtr t' => P_ptr t' (CppType_nested_ind t')
  | TTemplate n args => P_template n args (all args)
  | TFun r ps => P_fun r ps (CppType_nested_ind r) (all ps)
  end.
End CppType_induction.

(* ------------------------------------------------------------------ *)
(** ** Overriding and virtual dispatch *)

Module Virtual.
Import Syntax.

(** What the declaration of a base class says about one member function.
    [bonsoir_action.h], which declares [BonsoirAction], is not part of the
    header; its member functions are a parameter of everything below. *)
Record BaseMethod : Type := mkBaseMethod
  { bm_name : string
  ; bm_signature : Signature
  ; bm_virtual : bool }.

Definition same_call (name : string) (params : list CppType) (m : BaseMethod) : bool :=
  String.eqb name (bm_name m) && types_eqb params (sig_params (bm_signature m)).

(** A class cannot declare two member functions with one name and one
    parameter list. *)
Fixpoint distinct_methods (base : list BaseMethod) : bool :=
  match base with
  | [] => true
  | m :: rest =>
      negb (existsb (same_call (bm_name m) (sig_params (bm_signature m))) rest)
      && distinct_methods rest
  end.

(** [f] overrides [m]: same name, same signature, and [m] is virtual. *)
Definition overrides (f : Function) (m : BaseMethod) : bool :=
  bm_virtual m
  && String.eqb (fn_name f) (bm_name m)
  && signature_eqb (signature_of f) (bm_signature m).

(** The check a compiler makes for the [override] specifier: a function
    marked [override] that overrides no virtual function of the base is an
    error. *)
Definition override_ok (base : list BaseMethod) (f : Function) : bool :=
  if fn_override f then existsb (overrides f) base else true.

Definition compiles_against (base : list BaseMethod) (c : Class) : bool :=
  distinct_methods base && forallb (override_ok base) (member_functions c).

(** The function a call resolves to, named by its class. *)
Inductive Target : Type :=
| Implementation (class : string) (name : string).

Definition declares (c : Class) (name : string) (params : list CppType) : bool :=
  existsb (fun f => String.eqb name (fn_name f)
                    && types_eqb params (map param_type (fn_params f)))
          (member_functions c).

(** [dispatch base_name base dyn name params]: the call [p->name(params)]
    where [p] has static type pointer (or reference) to the base class and
    points to an object whose class is [dyn].  The name is looked up in the
    base class; a non-virtual function is called as found, a virtual one
    through the final overrider in [dyn]. *)
Definition dispatch (base_name : string) (base : list BaseMethod) (dyn : Class)
           (name : string) (params : list CppType) : option Target :=
  match find (same_call name params) base with
  | None => None
  | Some m =>
      if bm_virtual m && declares dyn name params
      then Some (Implementation (class_name dyn) name)
      else Some (Implementation base_name name)
  end.

(** A declaration of [BonsoirAction] the header compiles against. *)
Definition BonsoirAction_example : list BaseMethod :=
  [ mkBaseMethod "start" (mkSignature (Some TVoid) []) true
  ; mkBaseMethod "dispose" (mkSignature (Some TVoid) []) true ].

End Virtual.

(* ------------------------------------------------------------------ *)
(** ** The object model *)

Module Windows.
Import Syntax.

(** Scalar and pointer types of the Windows SDK.  A pointer is an address,
    0 being the null pointer. *)
Definition DWORD : Type := Z.
Definition ULONG : Type := Z.
Definition BOOL : Type := Z.
Definition PVOID : Type := Z.
Definition HANDLE : Type := Z.
Definition PDNS_SERVICE_INSTANCE : Type := Z.

(** Modelled from the spec: [windns.h] of the Windows SDK is not among the
    sources.  The SDK declares the completion callback of a service
    registration as [VOID DNS_SERVICE_REGISTER_COMPLETE(DWORD Status,
    PVOID pQueryContext, PDNS_SERVICE_INSTANCE pInstance)]; this is its
    signature. *)
Definition DNS_SERVICE_REGISTER_COMPLETE_signature : Signature :=
  {| sig_return := Some TVoid
   ; sig_params := [TName "DWORD"; TName "PVOID"; TName "PDNS_SERVICE_INSTANCE"] |}.

Section Request.
(** What running a callback does to the host. *)
Context {Effect : Type}.

(** The same type as a type of functions. *)
Definition DNS_SERVICE_REGISTER_COMPLETE : Type :=
  DWORD -> PVOID -> PDNS_SERVICE_INSTANCE -> Effect.

(** Modelled from the spec: the request structure of [windns.h].  The
    callback is a function pointer: [None] is the null pointer. *)
Record DNS_SERVICE_REGISTER_REQUEST : Type := mkRequest
  { Version : ULONG
  ; InterfaceIndex : ULONG
  ; pServiceInstance : PDNS_SERVICE_INSTANCE
  ; pRegisterCompletionCallback : option DNS_SERVICE_REGISTER_COMPLETE
  ; pQueryContext : PVOID
  ; hCredentials : HANDLE
  ; unicastEnabled : BOOL }.

(** The value of [DNS_SERVICE_REGISTER_REQUEST x{}]: every scalar is
    zero and every pointer is null. *)
Definition value_initialized : DNS_SERVICE_REGISTER_REQUEST :=
  {| Version := 0%Z
   ; InterfaceIndex := 0%Z
   ; pServiceInstance := 0%Z
   ; pRegisterCompletionCallback := None
   ; pQueryContext := 0%Z
   ; hCredentials := 0%Z
   ; unicastEnabled := 0%Z |}.

Definition all_fields_zero (r : DNS_SERVICE_REGISTER_REQUEST) : Prop :=
  Version r = 0%Z /\ InterfaceIndex r = 0%Z /\ pServiceInstance r = 0%Z
  /\ pRegisterCompletionCallback r = None /\ pQueryContext r = 0%Z
  /\ hCredentials r = 0%Z /\ unicastEnabled r = 0%Z.

Definition set_pRegisterCompletionCallback
           (cb : DNS_SERVICE_REGISTER_COMPLETE)
           (r : DNS_SERVICE_REGISTER_REQUEST) : DNS_SERVICE_REGISTER_REQUEST :=
  {| Version := Version r
   ; InterfaceIndex := InterfaceIndex r
   ; pServiceInstance := pServiceInstance r
   ; pRegisterCompletionCallback := Some cb
   ; pQueryContext := pQueryContext r
   ; hCredentials := hCredentials r
   ; unicastEnabled := unicastEnabled r |}.

End Request.

Arguments DNS_SERVICE_REGISTER_COMPLETE : clear implicits.
Arguments DNS_SERVICE_REGISTER_REQUEST : clear implicits.

End Windows.

Module bonsoir_windows.
Import Windows.

Section Broadcast.
(** Declared by [bonsoir_action.h], outside the header.  [Effect] stands for
    what a callback does to the host. *)
Context {BonsoirAction BonsoirService Effect : Type}.

(** [class BonsoirBroadcast : public BonsoirAction]: the base sub-object
    and the two data members. *)
Record BonsoirBroadcast : Type := mkBonsoirBroadcast
  { action : BonsoirAction
  ; service : BonsoirService
  ; registerRequest : DNS_SERVICE_REGISTER_REQUEST Effect }.

(** Initialisation of a data member by a constructor: the
    mem-initialiser of the constructor if it has one for the member,
    otherwise the default member initialiser of the class. *)
Definition init_member {T : Type} (mem_initializer : option T)
           (default_member_initializer : T) : T :=
  match mem_initializer with
  | Some v => v
  | None => default_member_initializer
  end.

(** The default member initialiser [registerRequest{}]. *)
Definition registerRequest_default : DNS_SERVICE_REGISTER_REQUEST Effect :=
  value_initialized.

(** The members of a [BonsoirBroadcast] once a constructor has initialised
    them.  The constructor is defined outside the header, so what it chooses
    is a parameter: the base sub-object, the value of [service] and the
    mem-initialiser of [registerRequest], if it has one. *)
Definition initialised (base : BonsoirAction) (service_value : BonsoirService)
           (registerRequest_initializer : option (DNS_SERVICE_REGISTER_REQUEST Effect))
  : BonsoirBroadcast :=
  {| action := base
   ; service := service_value
   ; registerRequest := init_member registerRequest_initializer registerRequest_default |}.

End Broadcast.

Arguments BonsoirBroadcast : clear implicits.

End bonsoir_windows.

(* ------------------------------------------------------------------ *)
(** ** Queries on the header *)

Module Queries.
Import Syntax.

(** Words that name a thread, a lock, an atomic or another synchronisation
    primitive of C++ or of the Windows API, in lower case. *)
Definition concurrency_words : list string :=
  [ "thread"; "mutex"; "lock"; "atomic"; "semaphore"; "condition_variable"
  ; "future"; "promise"; "async"; "barrier"; "latch"; "volatile"
  ; "critical_section"; "synchroni"; "once_flag"; "call_once"
  ; "memory_order"; "fence"; "interlocked"; "waitfor"; "co_await" ].

(** Keywords that introduce a class type. *)
Definition class_keys : list string := ["class"; "struct"; "union"].




(** The free functions of a header with the namespace that encloses
    them. *)
Definition namespace_functions (h : Header) : list (string * Function) :=
  flat_map (fun d => match d with
                     | Namespace n ds =>
                         flat_map (fun x => match x with
                                            | NsFunction f => [(n, f)]
                                            | _ => []
                                            end) ds
                     | _ => []
                     end) h.

(** The Rocq type a type name of the Windows SDK stands for. *)
Definition denote (t : CppType) : option Type :=
  match t with
  | TName n =>
      if String.eqb n "DWORD" then Some Windows.DWORD
      else if String.eqb n "PVOID" then Some Windows.PVOID
      else if String.eqb n "PDNS_SERVICE_INSTANCE" then Some Windows.PDNS_SERVICE_INSTANCE
      else None
  | _ => None
  end.

Fixpoint arrows (ps : list CppType) (ret : Type) : option Type :=
  match ps with
  | [] => Some ret
  | p :: ps' =>
      match denote p, arrows ps' ret with
      | Some a, Some b => Some (a -> b)
      | _, _ => None
      end
  end.

(** The type of the functions with a signature that returns [void]: they
    take the parameters and act on the host. *)
Definition denote_signature (Effect : Type) (s : Signature) : option Type :=
  match sig_return s with
  | Some TVoid => arrows (sig_params s) Effect
  | _ => None
  end.

End Queries.

(* ------------------------------------------------------------------ *)
(** ** Members: access, constructors, parameter passing *)

Module Members.
Import Syntax.

(** Where a use of a member is written: in a member function of a class
    (given with the classes it derives from), in a function at namespace
    scope, or anywhere else. *)
Inductive Scope : Type :=
| InMemberOf (class : string) (derives_from : list string)
| InFreeFunction (name : string)
| Elsewhere.

(** The members of a class, each with the access of the section it is
    declared in. *)
Definition members_with_access (c : Class) : list (Access * Member) :=
  flat_map (fun s => map (pair (fst s)) (snd s)) (class_sections c).

(** Access checking for a class without friends: a public member is
    accessible everywhere, a protected one in the class and in the classes
    derived from it, a private one in the class only. *)
Definition accessible (c : Class) (from : Scope) (a : Access) : bool :=
  match a, from with
  | Public, _ => true
  | Protected, InMemberOf n bases =>
      String.eqb n (class_name c) || existsb (String.eqb (class_name c)) bases
  | Private, InMemberOf n _ => String.eqb n (class_name c)
  | _, _ => false
  end.

(** The data members of [c] that code written in [from] may name. *)
Definition accessible_data (c : Class) (from : Scope) : list string :=
  flat_map (fun am => match snd am with
                      | MData d => if accessible c from (fst am) then [dm_name d] else []
                      | MFunction _ => []
                      end)
           (members_with_access c).

(** The member functions of [c] that code written in [from] may call. *)
Definition accessible_functions (c : Class) (from : Scope) : list string :=
  flat_map (fun am => match snd am with
                      | MFunction f => if accessible c from (fst am) then [fn_name f] else []
                      | MData _ => []
                      end)
           (members_with_access c).

Definition is_member_scope (c : Class) (from : Scope) : bool :=
  match from with
  | InMemberOf n _ => String.eqb n (class_name c)
  | _ => false
  end.

(** The constructors a class declares: the member functions without a
    return type that bear the name of the class. *)
Definition constructors (c : Class) : list Function :=
  filter (fun f => match fn_return f with
                   | None => String.eqb (fn_name f) (class_name c)
                   | Some _ => false
                   end)
         (member_functions c).

(** A constructor that can copy or move: one parameter, of the type of the
    class. *)
Definition copies_or_moves (c : Class) (f : Function) : bool :=
  match fn_params f with
  | [p] => type_eqb (TName (class_name c)) (param_type p)
  | _ => false
  end.

(** The number of arguments each constructor of the class takes, when no
    parameter has a default argument and no parameter list is variadic.  The
    declared constructors come first.  A class that declares no constructor
    has an implicit default constructor; a class that declares no copy or
    move constructor has both declared implicitly (either may be defined as
    deleted), each with one parameter. *)
Definition constructor_arities (c : Class) : list nat :=
  map (fun f => List.length (fn_params f)) (constructors c)
  ++ match constructors c with
     | [] => [0]
     | _ => []
     end
  ++ (if existsb (copies_or_moves c) (constructors c) then [] else [1; 1]).

(** Some constructor of the class, declared or implicit, takes [n]
    arguments. *)
Definition constructor_takes (c : Class) (n : nat) : bool :=
  existsb (Nat.eqb n) (constructor_arities c).

(** Tokens of a default argument, a variadic parameter list, a defaulted or
    deleted function. *)
Definition default_argument_tokens : list string := ["="; "."; "default"; "delete"].

(** Tokens that declare a destructor, an operator, a conversion, a friend or
    a static member. *)
Definition special_member_tokens : list string :=
  ["~"; "operator"; "friend"; "static"; "explicit"; "virtual"].

Definition is_pointer (t : CppType) : bool :=
  match t with
  | TPtr _ => true
  | _ => false
  end.

(** The parameters written with a pointer declarator. *)
Definition pointer_params (f : Function) : list Param :=
  filter (fun p => is_pointer (param_type p)) (fn_params f).

(** The kind of a declaration at the top level of a header. *)
Inductive TopKind : Type :=
| KPragmaOnce
| KInclude (file : string)
| KUsingNamespace (ns : string)
| KNamespace (name : string) (declared : list string).

Definition ns_decl_name (d : NsDecl) : string :=
  match d with
  | NsClass c => class_name c
  | NsFunction f => fn_name f
  end.

Definition top_kind (d : TopDecl) : TopKind :=
  match d with
  | PragmaOnce => KPragmaOnce
  | Include f => KInclude f
  | UsingNamespace n => KUsingNamespace n
  | Namespace n ds => KNamespace n (map ns_decl_name ds)
  end.

End Members.

(* ------------------------------------------------------------------ *)
(** ** Ways a status or a failure can leave the interface *)

Module Channels.
Import Syntax.

(** The tokens that follow the first [name (] in the token stream. *)
Fixpoint after_open (name : string) (ts : list string) : list string :=
  match ts with
  | [] => []
  | a :: rest =>
      match rest with
      | b :: rest' =>
          if String.eqb a name && String.eqb b "(" then rest'
          else after_open name rest
      | [] => []
      end
  end.

Fixpoint until_semicolon (ts : list string) : list string :=
  match ts with
  | [] => []
  | t :: rest => if String.eqb t ";" then [] else t :: until_semicolon rest
  end.

(** The declarator of the function [name]: its parameters and what follows
    them, up to the semicolon that ends the declaration. *)
Definition declarator (name : string) (ts : list string) : list string :=
  until_semicolon (after_open name ts).

(** A function is non-throwing when its declarator has an exception
    specification ([noexcept], or the older [throw()]); a function declared
    without one is potentially throwing. *)
Definition non_throwing (ts : list string) (f : Function) : bool :=
  SourceText.has_token "noexcept" (declarator (fn_name f) ts)
  || SourceText.has_token "throw" (declarator (fn_name f) ts).




End Channels.

(* ------------------------------------------------------------------ *)
(** ** The syntax tree and the text *)

Example tokens_head :
  firstn 8 SourceText.tokens =
  ["#"; "pragma"; "once"; "#"; "include"; SourceText.quoted "bonsoir_action.h"; "using"; "namespace"].
Proof. reflexivity. Qed.

(** The syntax tree prints to exactly the tokens of the text: nothing the
    header declares is missing from [Syntax.bonsoir_broadcast_h] and nothing
    was added to it. *)
Lemma header_tokens_agree :
  Syntax.header_tokens Syntax.bonsoir_broadcast_h = SourceText.tokens.
Proof. reflexivity. Qed.

Example lex_line_scope_and_comment :
  SourceText.lex_line false EmptyString "a::b(c *d); // e f"
  = ["a"; ":"; ":"; "b"; "("; "c"; "*"; "d"; ")"; ";"].
Proof. reflexivity. Qed.

Example split_at_no_final_separator :
  SourceText.split_at "/"%char EmptyString "ab/c" = ["ab"; "c"]
  /\ SourceText.split_at "/"%char EmptyString "ab/c/" = ["ab"; "c"; EmptyString].
Proof. split; reflexivity. Qed.

(** An exception specification in a declarator is seen, also before
    [override]; another function's specification is not taken for it. *)
Example non_throwing_reads_the_declarator :
  let ts := SourceText.tokenize
              ["void start() noexcept override;"; "void dispose() override;"] in
  Channels.non_throwing ts Syntax.start_decl = true
  /\ Channels.non_throwing ts Syntax.dispose_decl = false.
Proof. split; reflexivity. Qed.

(** Joining the lines and splitting the file again gives the lines back. *)
Lemma text_lines_contents :
  SourceText.text_lines SourceText.contents = SourceText.lines.
Proof. vm_compute. reflexivity. Qed.

Lemma Forall_of_forallb {A : Type} (p : A -> bool) (l : list A) :
  forallb p l = true -> Forall (fun x => p x = true) l.
Proof.
  intros H. apply Forall_forall. intros x Hx.
  exact (proj1 (forallb_forall p l) H x Hx).
Qed.

Lemma Forall_false_of_forallb {A : Type} (p : A -> bool) (l : list A) :
  forallb (fun x => negb (p x)) l = true -> Forall (fun x => p x = false) l.
Proof.
  intros H. apply Forall_forall. intros x Hx.
  apply negb_true_iff. exact (proj1 (forallb_forall _ l) H x Hx).
Qed.

(* ------------------------------------------------------------------ *)
(** ** Equality tests decide equality *)


Lemma types_eqb_unfold (xs ys : list Syntax.CppType) :
  (fix all2 (xs ys : list Syntax.CppType) : bool :=
     match xs, ys with
     | [], [] => true
     | x :: xs', y :: ys' => Syntax.type_eqb x y && all2 xs' ys'
     | _, _ => false
     end) xs ys = Syntax.types_eqb xs ys.
Proof. reflexivity. Qed.

Lemma types_eqb_eq_of (xs : list Syntax.CppType) :
  Forall (fun a => forall b, Syntax.type_eqb a b = true -> a = b) xs ->
  forall ys, Syntax.types_eqb xs ys = true -> xs = ys.
Proof.
  induction 1 as [|x xs Hx _ IH]; intros [|y ys] H; simpl in H;
    try discriminate; try reflexivity.
  apply andb_true_iff in H as [H1 H2].
  f_equal; [now apply Hx | now apply IH].
Qed.

Lemma type_eqb_eq (a : Syntax.CppType) :
  forall b, Syntax.type_eqb a b = true -> a = b.
Proof.
  induction a using CppType_nested_ind; intros b Hb; destruct b;
    simpl in Hb; try discriminate; try reflexivity.
  - apply String.eqb_eq in Hb. now subst.
  - apply andb_true_iff in Hb as [H1 H2].
    apply String.eqb_eq in H1. subst. f_equal. now apply IHa.
  - f_equal. now apply IHa.
  - apply andb_true_iff in Hb as [H1 H2].
    apply String.eqb_eq in H1. subst. f_equal.
    rewrite types_eqb_unfold in H2. now apply types_eqb_eq_of.
  - apply andb_true_iff in Hb as [H1 H2].
    rewrite types_eqb_unfold in H2.
    f_equal; [now apply IHa | now apply types_eqb_eq_of].
Qed.

Lemma types_eqb_eq (xs ys : list Syntax.CppType) :
  Syntax.types_eqb xs ys = true -> xs = ys.
Proof.
  apply types_eqb_eq_of. apply Forall_forall. intros a _. apply type_eqb_eq.
Qed.

Lemma type_eqb_refl (a : Syntax.CppType) : Syntax.type_eqb a a = true.
Proof.
  induction a using CppType_nested_ind; simpl;
    rewrite ?String.eqb_refl, ?IHa; simpl; try reflexivity.
  - induction H as [|x xs Hx _ IH]; simpl; [reflexivity|].
    now rewrite Hx.
  - induction H as [|x xs Hx _ IH]; simpl; [reflexivity|].
    now rewrite Hx.
Qed.

Lemma types_eqb_refl (xs : list Syntax.CppType) : Syntax.types_eqb xs xs = true.
Proof.
  induction xs as [|x xs IH]; simpl; [reflexivity|].
  now rewrite type_eqb_refl.
Qed.

Lemma signature_eqb_params (s t : Syntax.Signature) :
  Syntax.signature_eqb s t = true -> Syntax.sig_params s = Syntax.sig_params t.
Proof.
  unfold Syntax.signature_eqb. intros H.
  apply andb_true_iff in H as [_ H]. now apply types_eqb_eq.
Qed.

(* ------------------------------------------------------------------ *)
(** ** Lookup in a base class *)

Lemma same_call_eq (name : string) (params : list Syntax.CppType) (m : Virtual.BaseMethod) :
  Virtual.same_call name params m = true <->
  name = Virtual.bm_name m /\ params = Syntax.sig_params (Virtual.bm_signature m).
Proof.
  unfold Virtual.same_call. rewrite andb_true_iff, String.eqb_eq. split.
  - intros [H1 H2]. split; [assumption | now apply types_eqb_eq].
  - intros [H1 H2]. split; [assumption | subst; apply types_eqb_refl].
Qed.

Lemma overrides_same_call (f : Syntax.Function) (m : Virtual.BaseMethod) :
  Virtual.overrides f m = true ->
  Virtual.bm_virtual m = true /\
  Virtual.same_call (Syntax.fn_name f)
                    (map Syntax.param_type (Syntax.fn_params f)) m = true.
Proof.
  unfold Virtual.overrides. intros H.
  apply andb_true_iff in H as [H H3]. apply andb_true_iff in H as [H1 H2].
  split; [assumption|]. apply same_call_eq. split.
  - now apply String.eqb_eq.
  - exact (signature_eqb_params _ _ H3).
Qed.

(** In a base class without duplicate declarations, the function found by
    name lookup is the virtual function that [f] overrides. *)
Lemma overridden_is_found (base : list Virtual.BaseMethod) (f : Syntax.Function) :
  Virtual.distinct_methods base = true ->
  existsb (Virtual.overrides f) base = true ->
  exists m,
    In m base
    /\ find (Virtual.same_call (Syntax.fn_name f)
                               (map Syntax.param_type (Syntax.fn_params f))) base = Some m
    /\ Virtual.bm_virtual m = true.
Proof.
  induction base as [|m rest IH]; simpl; intros Hd Hex; [discriminate|].
  apply andb_true_iff in Hd as [Hfresh Hd].
  destruct (Virtual.overrides f m) eqn:Hov.
  - destruct (overrides_same_call _ _ Hov) as [Hv Hsame].
    exists m. rewrite Hsame. auto.
  - simpl in Hex. destruct (IH Hd Hex) as (m' & Hin & Hfind & Hv).
    destruct (Virtual.same_call (Syntax.fn_name f)
                (map Syntax.param_type (Syntax.fn_params f)) m) eqn:Hsame.
    + exfalso.
      apply same_call_eq in Hsame as [Hn Hp].
      apply find_some in Hfind as [_ Hsame'].
      rewrite Hn, Hp in Hsame'.
      apply negb_true_iff in Hfresh.
      assert (Hc : existsb (Virtual.same_call (Virtual.bm_name m)
                              (Syntax.sig_params (Virtual.bm_signature m))) rest = true)
        by (apply existsb_exists; exists m'; auto).
      congruence.
    + exists m'. auto.
Qed.

(* ------------------------------------------------------------------ *)
(** ** The header as a text *)

(** C6, as the spec states it, fails: counted as an editor numbers them, the
    header does not have 28 lines. *)
Lemma header_not_28_lines :
  List.length (SourceText.text_lines SourceText.contents) <> 28.
Proof. vm_compute. discriminate. Qed.

(** C6 (amended): the header is 29 lines long.  28 of them end in a line
    feed; the 29th, the brace that closes the namespace, ends the file
    without one. *)
Theorem header_line_count :
  List.length (SourceText.text_lines SourceText.contents) = 29
  /\ SourceText.terminated_lines SourceText.contents = 28
  /\ nth_error (SourceText.text_lines SourceText.contents) 28
     = Some "}  // namespace bonsoir_windows".
Proof. vm_compute. repeat split. Qed.

(** C3: the header declares exactly one class, [BonsoirBroadcast].  In the
    text the keyword [class] occurs once, followed by that name, and neither
    [struct] nor [union] occurs. *)
Theorem one_class_BonsoirBroadcast :
  map Syntax.class_name (Syntax.classes Syntax.bonsoir_broadcast_h) = ["BonsoirBroadcast"]
  /\ map (fun k => SourceText.count_token k SourceText.tokens) Queries.class_keys = [1; 0; 0]
  /\ SourceText.followers "class" SourceText.tokens = ["BonsoirBroadcast"].
Proof. repeat split. Qed.

(** C4: the functions the header introduces are the constructor, [start],
    [dispose] and [registerCallback], and none of them has a body: every
    declarator is closed by a semicolon, and in the text no closing
    parenthesis is followed by an opening brace. *)
Theorem declaration_only :
  map Syntax.fn_name (Syntax.functions Syntax.bonsoir_broadcast_h)
  = ["BonsoirBroadcast"; "start"; "dispose"; "registerCallback"]
  /\ Forall (fun f => Syntax.fn_body f = None)
            (Syntax.functions Syntax.bonsoir_broadcast_h)
  /\ Forall (fun t => String.eqb "{" t = false)
            (SourceText.followers ")" SourceText.tokens).
Proof.
  split; [reflexivity|]. split.
  - repeat constructor.
  - apply Forall_false_of_forallb. reflexivity.
Qed.

(** C7: no thread, lock, atomic or other synchronisation primitive is named
    anywhere in the header: no line of the text contains one of the
    [concurrency_words], in any letter case. *)
Theorem no_concurrency_primitive :
  Forall (fun w => Forall (fun l => SourceText.mentions w l = false) SourceText.lines)
         Queries.concurrency_words.
Proof.
  apply Forall_forall. intros w Hw.
  apply Forall_false_of_forallb. revert w Hw. apply Forall_forall.
  apply Forall_of_forallb. vm_compute. reflexivity.
Qed.

(* ------------------------------------------------------------------ *)
(** ** The declared interface and state *)

(** C5, as the spec states it, fails: the data members of the header are not
    [registerRequest] alone. *)
Lemma state_not_only_registerRequest :
  Syntax.state Syntax.bonsoir_broadcast_h <> [Syntax.registerRequest_decl].
Proof. discriminate. Qed.

(** C5 (amended): the header declares two data members, the public
    [BonsoirService service] and the private
    [DNS_SERVICE_REGISTER_REQUEST registerRequest], and one free function,
    the callback [registerCallback]; its only class is [BonsoirBroadcast]
    and it introduces no structure, union, enumeration or type alias. *)
Theorem header_state :
  Syntax.state Syntax.bonsoir_broadcast_h
  = [Syntax.service_decl; Syntax.registerRequest_decl]
  /\ map Syntax.dm_type (Syntax.state Syntax.bonsoir_broadcast_h)
     = [Syntax.TName "BonsoirService"; Syntax.TName "DNS_SERVICE_REGISTER_REQUEST"]
  /\ Syntax.free_functions Syntax.bonsoir_broadcast_h = [Syntax.registerCallback_decl]
  /\ Syntax.classes Syntax.bonsoir_broadcast_h = [Syntax.BonsoirBroadcast_decl]
  /\ Forall (fun k => SourceText.has_token k SourceText.tokens = false)
            ["struct"; "union"; "enum"; "typedef"].
Proof.
  repeat split. apply Forall_false_of_forallb. reflexivity.
Qed.



(** C10: [registerCallback] is a free function of namespace
    [bonsoir_windows], member of no class, and its signature is that of
    [DNS_SERVICE_REGISTER_COMPLETE]; as a function it has the type of the
    field [pRegisterCompletionCallback], so a request can carry it. *)
Theorem registerCallback_signature :
  Queries.namespace_functions Syntax.bonsoir_broadcast_h
  = [("bonsoir_windows", Syntax.registerCallback_decl)]
  /\ Forall (fun c => Forall (fun f => String.eqb "registerCallback" (Syntax.fn_name f) = false)
                             (Syntax.member_functions c))
            (Syntax.classes Syntax.bonsoir_broadcast_h)
  /\ Syntax.signature_of Syntax.registerCallback_decl
     = Windows.DNS_SERVICE_REGISTER_COMPLETE_signature
  /\ (forall Effect : Type,
        Queries.denote_signature Effect (Syntax.signature_of Syntax.registerCallback_decl)
        = Some (Windows.DNS_SERVICE_REGISTER_COMPLETE Effect))
  /\ forall (Effect : Type)
            (registerCallback : Windows.DWORD -> Windows.PVOID ->
                                Windows.PDNS_SERVICE_INSTANCE -> Effect)
            (request : Windows.DNS_SERVICE_REGISTER_REQUEST Effect),
       Windows.pRegisterCompletionCallback
         (Windows.set_pRegisterCompletionCallback registerCallback request)
       = Some registerCallback.
Proof.
  split; [reflexivity|]. split; [repeat constructor|].
  split; [reflexivity|]. split; [reflexivity|]. reflexivity.
Qed.

(** Against a base whose [start] is not virtual the header does not compile,
    and a call through the base would run the function of the base. *)
Example non_virtual_base :
  let base := [ Virtual.mkBaseMethod "start" (Syntax.mkSignature (Some Syntax.TVoid) []) false
              ; Virtual.mkBaseMethod "dispose" (Syntax.mkSignature (Some Syntax.TVoid) []) true ] in
  Virtual.compiles_against base Syntax.BonsoirBroadcast_decl = false
  /\ Virtual.dispatch "BonsoirAction" base Syntax.BonsoirBroadcast_decl "start" []
     = Some (Virtual.Implementation "BonsoirAction" "start").
Proof. split; reflexivity. Qed.

(** What the header fixes about [registerRequest] at construction: a
    constructor with a mem-initialiser for the member gives it that value;
    one without leaves it to the initialiser [{}], every field zero. *)
Lemma registerRequest_initialised
      {BonsoirAction BonsoirService Effect : Type}
      (base : BonsoirAction) (service_value : BonsoirService)
      (r : Windows.DNS_SERVICE_REGISTER_REQUEST Effect) :
  bonsoir_windows.registerRequest
    (bonsoir_windows.initialised base service_value (Some r)) = r
  /\ Windows.all_fields_zero
       (bonsoir_windows.registerRequest
          (bonsoir_windows.initialised base service_value
             (@None (Windows.DNS_SERVICE_REGISTER_REQUEST Effect)))).
Proof.
  split; [reflexivity|]. unfold Windows.all_fields_zero. simpl. repeat split.
Qed.

(* ------------------------------------------------------------------ *)
(** ** Overriding *)

(** C9: [start] and [dispose] are declared [override].  Whatever
    [bonsoir_action.h] declares, if the header compiles against it then
    [BonsoirAction] has virtual member functions [start()] and [dispose()],
    and a call of either through a pointer or reference to [BonsoirAction]
    that designates a [BonsoirBroadcast] runs the function of
    [BonsoirBroadcast]. *)
Theorem override_dispatch (base : list Virtual.BaseMethod)
  (Hcompiles : Virtual.compiles_against base Syntax.BonsoirBroadcast_decl = true) :
  Syntax.class_bases Syntax.BonsoirBroadcast_decl = [(Syntax.Public, "BonsoirAction")]
  /\ Syntax.fn_override Syntax.start_decl = true
  /\ Syntax.fn_override Syntax.dispose_decl = true
  /\ Forall (fun name =>
       (exists m, In m base
                  /\ Virtual.bm_name m = name
                  /\ Syntax.sig_params (Virtual.bm_signature m) = []
                  /\ Virtual.bm_virtual m = true)
       /\ Virtual.dispatch "BonsoirAction" base Syntax.BonsoirBroadcast_decl name []
          = Some (Virtual.Implementation "BonsoirBroadcast" name))
     ["start"; "dispose"].
Proof.
  unfold Virtual.compiles_against in Hcompiles.
  apply andb_true_iff in Hcompiles as [Hdistinct Hall].
  pose proof (proj1 (forallb_forall _ _) Hall) as Hok.
  assert (Hfound : forall f,
             In f [Syntax.start_decl; Syntax.dispose_decl] ->
             (exists m, In m base
                        /\ Virtual.bm_name m = Syntax.fn_name f
                        /\ Syntax.sig_params (Virtual.bm_signature m) = []
                        /\ Virtual.bm_virtual m = true)
             /\ Virtual.dispatch "BonsoirAction" base Syntax.BonsoirBroadcast_decl
                                 (Syntax.fn_name f) []
                = Some (Virtual.Implementation "BonsoirBroadcast" (Syntax.fn_name f))).
  { intros f Hf.
    assert (Hmember : In f (Syntax.member_functions Syntax.BonsoirBroadcast_decl))
      by (simpl; simpl in Hf; tauto).
    assert (Hshape : Syntax.fn_override f = true /\ Syntax.fn_params f = []
                     /\ Virtual.declares Syntax.BonsoirBroadcast_decl (Syntax.fn_name f) [] = true)
      by (destruct Hf as [<-|[<-|[]]]; repeat split).
    destruct Hshape as (Hov & Hparams & Hdecl).
    specialize (Hok f Hmember). unfold Virtual.override_ok in Hok.
    rewrite Hov in Hok.
    destruct (overridden_is_found base f Hdistinct Hok) as (m & Hin & Hfind & Hvirtual).
    rewrite Hparams in Hfind. simpl in Hfind.
    destruct (find_some _ _ Hfind) as [_ Hsame].
    apply same_call_eq in Hsame as [Hname Hsig].
    split.
    - exists m. auto.
    - unfold Virtual.dispatch. rewrite Hfind, Hvirtual, Hdecl. reflexivity. }
  repeat split; repeat constructor;
    try (apply (Hfound Syntax.start_decl); simpl; tauto);
    try (apply (Hfound Syntax.dispose_decl); simpl; tauto).
Qed.

Lemma override_dispatch_witness :
  Virtual.compiles_against Virtual.BonsoirAction_example Syntax.BonsoirBroadcast_decl = true
  /\ Forall (fun name =>
       (exists m, In m Virtual.BonsoirAction_example
                  /\ Virtual.bm_name m = name
                  /\ Syntax.sig_params (Virtual.bm_signature m) = []
                  /\ Virtual.bm_virtual m = true)
       /\ Virtual.dispatch "BonsoirAction" Virtual.BonsoirAction_example
                           Syntax.BonsoirBroadcast_decl name []
          = Some (Virtual.Implementation "BonsoirBroadcast" name))
     ["start"; "dispose"].
Proof.
  split.
  - reflexivity.
  - apply (override_dispatch Virtual.BonsoirAction_example). reflexivity.
Defined.

(* ------------------------------------------------------------------ *)
(** ** The API the class wraps *)



(* ------------------------------------------------------------------ *)
(** ** Access to the members *)

(** X1: the header declares no friend, [service] is public and
    [registerRequest] private.  So code written anywhere but in a member
    function of [BonsoirBroadcast] (a class derived from it, the free
    function [registerCallback], the plugin) can name the data member
    [service] only, while the member functions can name both; the
    constructor, [start] and [dispose] can be called from everywhere. *)
Theorem registerRequest_is_encapsulated :
  SourceText.has_token "friend" SourceText.tokens = false
  /\ forall from : Members.Scope,
       Members.accessible_data Syntax.BonsoirBroadcast_decl from
       = (if Members.is_member_scope Syntax.BonsoirBroadcast_decl from
          then ["service"; "registerRequest"] else ["service"])
       /\ Members.accessible_functions Syntax.BonsoirBroadcast_decl from
          = ["BonsoirBroadcast"; "start"; "dispose"].
Proof.
  split; [reflexivity|].
  intros [n bases|name|]; simpl; try (split; reflexivity).
  unfold Members.accessible_data, Members.accessible_functions. simpl.
  destruct (String.eqb n "BonsoirBroadcast"); split; reflexivity.
Qed.

(** X2: [BonsoirBroadcast] has no default constructor.  The header declares
    one constructor, with five parameters, no default argument and no
    variadic parameter list; it declares no copy or move constructor, so
    these are declared implicitly, with one parameter each.  A constructor of
    the class, declared or implicit, therefore takes five arguments or one,
    and never none. *)
Theorem no_default_constructor :
  Members.constructors Syntax.BonsoirBroadcast_decl = [Syntax.BonsoirBroadcast_ctor]
  /\ Forall (fun t => SourceText.has_token t SourceText.tokens = false)
            Members.default_argument_tokens
  /\ Members.constructor_takes Syntax.BonsoirBroadcast_decl 0 = false
  /\ forall n : nat,
       Members.constructor_takes Syntax.BonsoirBroadcast_decl n
       = Nat.eqb n 5 || Nat.eqb n 1.
Proof.
  split; [reflexivity|]. split; [apply Forall_false_of_forallb; reflexivity|].
  split; [reflexivity|].
  intros n. unfold Members.constructor_takes. simpl.
  destruct (Nat.eqb n 5), (Nat.eqb n 1); reflexivity.
Qed.

(** X3: the header declares no destructor, operator, friend or static member
    for [BonsoirBroadcast], and does not repeat [virtual]: the member
    functions are the constructor and the two functions marked [override],
    so [dispose] is the only teardown the class declares. *)
Theorem no_destructor_declared :
  Forall (fun t => SourceText.has_token t SourceText.tokens = false)
         Members.special_member_tokens
  /\ Forall (fun f => Syntax.fn_override f = true
                      \/ In f (Members.constructors Syntax.BonsoirBroadcast_decl))
            (Syntax.member_functions Syntax.BonsoirBroadcast_decl)
  /\ map Syntax.fn_name
         (filter Syntax.fn_override (Syntax.member_functions Syntax.BonsoirBroadcast_decl))
     = ["start"; "dispose"].
Proof.
  split; [apply Forall_false_of_forallb; reflexivity|]. split.
  - apply Forall_forall. intros f Hf. simpl in Hf.
    destruct Hf as [<-|[<-|[<-|[]]]];
      [right; simpl; auto | left; reflexivity | left; reflexivity].
  - reflexivity.
Qed.

(** X4: the constructor takes the service by value, with the type of the
    member [service] that keeps it, and borrows one object through a
    pointer, the binary messenger; no other declared parameter is written
    with a pointer declarator and the header has no reference. *)
Theorem service_by_value_messenger_by_pointer :
  flat_map Members.pointer_params (Syntax.functions Syntax.bonsoir_broadcast_h)
  = [Syntax.mkParam (Syntax.TPtr (Syntax.TQual "flutter" (Syntax.TName "BinaryMessenger")))
                    "_binaryMessenger"]
  /\ SourceText.has_token "&" SourceText.tokens = false
  /\ map Syntax.param_type
         (filter (fun p => String.eqb "_service" (Syntax.param_name p))
                 (Syntax.fn_params Syntax.BonsoirBroadcast_ctor))
     = [Syntax.dm_type Syntax.service_decl].
Proof. repeat split. Qed.

(** X5: the whole header is an include guard, the inclusion of
    [bonsoir_action.h], a using-directive for [flutter] and the namespace
    [bonsoir_windows] with the class and the callback: the declarations
    print to the token stream of the text, so the text holds nothing else,
    and its only comment is the one that closes the namespace. *)
Theorem header_inventory :
  map Members.top_kind Syntax.bonsoir_broadcast_h
  = [ Members.KPragmaOnce
    ; Members.KInclude "bonsoir_action.h"
    ; Members.KUsingNamespace "flutter"
    ; Members.KNamespace "bonsoir_windows" ["BonsoirBroadcast"; "registerCallback"] ]
  /\ Syntax.header_tokens Syntax.bonsoir_broadcast_h = SourceText.tokenize SourceText.lines
  /\ filter (SourceText.contains "//") SourceText.lines
     = ["}  // namespace bonsoir_windows"]
  /\ SourceText.has_token "define" SourceText.tokens = false.
Proof.
  split; [reflexivity|]. split; [reflexivity|].
  split; [vm_compute; reflexivity | reflexivity].
Qed.
